(** * chatBot_backend: the response cache and the message history

    A shallow embedding of [app/main.py] (the FastAPI handlers and their
    cache helpers), [app/models.py] and [app/schemas.py].

    The handlers talk to three outside services: the PostgreSQL table
    [messages] (through SQLAlchemy), a Redis server (through redis-py) and
    the OpenAI chat endpoint.  Their state is gathered in one [World]
    record that every handler threads through; a Python exception is the
    left summand of a handler's result. *)

From Stdlib Require Import ZArith Lia.
From stdpp Require Import base option list gmap strings pretty sorting.

Set Default Proof Using "Type".

Open Scope Z_scope.
Open Scope string_scope.
Open Scope list_scope.

(** ** Data model *)

(** [models.Message]: a row of the table [messages]. *)
Module models.
Record Message := mkMessage { id : Z; content : string; response : string }.
End models.

(** [schemas.py]: the pydantic request and response bodies, one module per
    class since they share their field names. *)
Module schemas.
Module MessageCreate.
Record t := mk { content : string }.
End MessageCreate.
Module Message.
Record t := mk { id : Z; content : string; response : string }.
End Message.
Module EditMessage.
Record t := mk { id : Z; content : string; response : string }.
(** [orm_mode]: a row returned by a handler is read field by field. *)
Definition from_orm (m : models.Message) : t :=
  mk (models.id m) (models.content m) (models.response m).
End EditMessage.
End schemas.

(** [EditMessageRequest] of main.py. *)
Record EditMessageRequest := mkEditMessageRequest { new_content : string }.

(** What a handler did to the outside services, newest event first. *)
Inductive Event :=
| OpenAICall (message : string)
| RedisGet (key : string)
| RedisSetex (key : string) (seconds : Z) (value : string).

Definition is_OpenAICall (e : Event) : bool :=
  match e with OpenAICall _ => true | _ => false end.

Definition is_Redis (e : Event) : bool :=
  match e with OpenAICall _ => false | _ => true end.

(** The exceptions a request can end with. *)
Inductive Exn :=
| HTTPException (status_code : Z) (detail : string)
| OpenAIError
| RedisError
| UnicodeDecodeError.

(** Python [bytes], as far as main.py tells them apart: [utf8 text] is
    [text.encode('utf-8')], the bytes redis-py sends for the [str] [text];
    [not_utf8 raw] is a byte string that is the encoding of no [str] (it is
    never empty, the empty byte string being [utf8 ""]). *)
Inductive bytes :=
| utf8 (text : string)
| not_utf8 (raw : string).

(** [b.decode('utf-8')], [None] where Python raises [UnicodeDecodeError]. *)
Definition decode_utf8 (b : bytes) : option string :=
  match b with
  | utf8 text => Some text
  | not_utf8 _ => None
  end.

Record World := mkWorld {
  messages : list models.Message;      (* rows of the table, in insertion order *)
  id_seq : Z;                          (* last value of the autoincrement sequence *)
  redis : gmap string (bytes * Z);     (* key -> (value, instant of expiry) *)
  now : Z;                             (* the clock, in seconds *)
  trace : list Event
}.

Definition set_messages (ms : list models.Message) (w : World) : World :=
  mkWorld ms (id_seq w) (redis w) (now w) (trace w).
Definition set_id_seq (n : Z) (w : World) : World :=
  mkWorld (messages w) n (redis w) (now w) (trace w).
Definition set_redis (r : gmap string (bytes * Z)) (w : World) : World :=
  mkWorld (messages w) (id_seq w) r (now w) (trace w).
Definition log (e : Event) (w : World) : World :=
  mkWorld (messages w) (id_seq w) (redis w) (now w) (e :: trace w).

(** Time passing between two requests. *)
Definition tick (d : Z) (w : World) : World :=
  mkWorld (messages w) (id_seq w) (redis w) (now w + d) (trace w).

(** What the Redis server holds under [key] at the world's instant.  Redis
    takes a key for expired once the clock is past its expiry: at the very
    instant of expiry the entry is still there. *)
Definition redis_value (w : World) (key : string) : option bytes :=
  match redis w !! key with
  | Some (v, expires) => if bool_decide (now w <= expires) then Some v else None
  | None => None
  end.

(** ** Handlers: state passing with exceptions *)

Definition Handler (A : Type) : Type := World -> (Exn + A) * World.

Definition ret {A} (a : A) : Handler A := fun w => (inr a, w).
Definition raise {A} (e : Exn) : Handler A := fun w => (inl e, w).
Definition bind {A B} (m : Handler A) (k : A -> Handler B) : Handler B :=
  fun w =>
    match m w with
    | (inl e, w') => (inl e, w')
    | (inr a, w') => k a w'
    end.

Notation "x <~ m ;; k" := (bind m (fun x => k))
  (at level 100, m at next level, right associativity).

(** Python's truth value of an [Optional[str]]: [None] and the empty
    string are both false. *)
Definition truthy (o : option string) : bool :=
  match o with
  | Some s => negb (String.eqb s "")
  | None => false
  end.

(** Python's truth value of an [Optional[bytes]]: [None] and the empty byte
    string are both false. *)
Definition truthy_bytes (o : option bytes) : bool :=
  match o with
  | Some (utf8 text) => negb (String.eqb text "")
  | Some (not_utf8 _) => true
  | None => false
  end.

(** Python's truth value of a list. *)
Definition truthy_list {A} (l : list A) : bool :=
  match l with [] => false | _ :: _ => true end.

(** The events a handler added: the prefix of the new trace above the old. *)
Definition new_events (w w' : World) : list Event :=
  take (length (trace w') - length (trace w))%nat (trace w').

(** ** The table [messages]

    What main.py itself does with the SQLAlchemy session: a filtered
    query, the deletion of a row by its primary key, and [commit], which
    keeps what the session did (the model applies changes at once). *)
Definition db_query_filter (P : models.Message -> Prop) `{forall m, Decision (P m)}
  : Handler (list models.Message) :=
  fun w => (inr (filter P (messages w)), w).

Definition db_delete (message : models.Message) : Handler unit :=
  fun w =>
    (inr tt,
     set_messages
       (filter (fun m => models.id m <> models.id message) (messages w)) w).

Definition db_commit : Handler unit := ret tt.

(** Python's [for x in l: body(x)]. *)
Fixpoint for_each {A} (l : list A) (body : A -> Handler unit) : Handler unit :=
  match l with
  | [] => ret tt
  | x :: l' => _ <~ body x ;; for_each l' body
  end.

(** The rows compared by their primary key. *)
Definition id_le (m1 m2 : models.Message) : Prop := models.id m1 <= models.id m2.

#[global] Instance id_le_dec m1 m2 : Decision (id_le m1 m2).
Proof. unfold id_le. apply _. Defined.

#[global] Instance id_le_total : Total id_le.
Proof. intros m1 m2. unfold id_le. lia. Qed.

#[global] Instance id_le_trans : Transitive id_le.
Proof. intros m1 m2 m3. unfold id_le. lia. Qed.

(** [crud.py] is imported by main.py but is not among the sources. *)
Module crud.

(** Modelled from the spec: [crud.create_message] is missing; it is the
    history store's [append(content, response)], which "assigns the next
    unused id", "persists the record, returns it". *)
Definition create_message (message : schemas.MessageCreate.t) (response : string)
  : Handler models.Message :=
  fun w =>
    let db_message :=
      models.mkMessage (id_seq w + 1) (schemas.MessageCreate.content message)
                       response in
    (inr db_message,
     set_id_seq (id_seq w + 1) (set_messages (messages w ++ [db_message]) w)).

(** Modelled from the spec: [crud.get_messages] is missing; it is the
    history store's [list(skip, limit)], which "returns records ordered by
    id ascending, skipping the first [skip] ... and returning at most
    [limit] records". *)
Definition get_messages (skip limit : Z) : Handler (list models.Message) :=
  fun w =>
    (inr (take (Z.to_nat limit)
            (drop (Z.to_nat skip) (merge_sort id_le (messages w)))), w).

(** Modelled from the spec: [crud.update_message] is missing; it is the
    history store's [update(id, newContent, newResponse)], an "in-place
    replace of content and response fields of the existing record", absent
    "if id does not exist". *)
Definition update_message (message_id : Z) (new_content new_response : string)
  : Handler (option models.Message) :=
  fun w =>
    match list_find (fun m => models.id m = message_id) (messages w) with
    | Some (i, m) =>
        let m' := models.mkMessage (models.id m) new_content new_response in
        (inr (Some m'), set_messages (<[i := m']> (messages w)) w)
    | None => (inr None, w)
    end.

End crud.

(** ** The outside services used while checking

    A digest that is the text itself, no stripping, a chat endpoint that
    answers every message, one that answers nothing but the empty text, one
    that always raises; a Redis server that is up, and one that is down. *)
Definition plain_digest (content : string) : string := content.
Definition no_strip (text : string) : string := text.
Definition echo_chat (n : nat) (message : string) : option string :=
  Some ("re: " +:+ message).
Definition mute_chat (n : nat) (message : string) : option string := Some "".
Definition failing_chat (n : nat) (message : string) : option string := None.
(** A digest under which all contents collide. *)
Definition constant_digest (content : string) : string := "0".
Definition redis_up (n : nat) : bool := false.
Definition redis_unreachable (n : nat) : bool := true.
(** Up for the read of a request that starts on an empty trace, down for
    its write. *)
Definition redis_write_fails (n : nat) : bool := bool_decide (n = 2%nat).

Definition empty_world : World := mkWorld [] 0 ∅ 0 [].

Definition hello : schemas.MessageCreate.t := schemas.MessageCreate.mk "Hello".

(** The chat endpoint answering the empty text to the call at trace
    position 1 (the call of a first request), and as [echo_chat] after. *)
Definition empty_then_echo_chat (n : nat) (message : string) : option string :=
  if bool_decide (n = 1%nat) then Some "" else echo_chat n message.

(** The world after [hello] was answered with the empty text. *)
Definition empty_answer_world : World :=
  mkWorld [models.mkMessage 1 "Hello" ""] 1 {[ "message:Hello" := (utf8 "", 300) ]} 0
    [RedisSetex "message:Hello" 300 ""; OpenAICall "Hello"; RedisGet "message:Hello"].

(** The table with the rows 1 to 5. *)
Definition five_rows : World :=
  mkWorld
    [models.mkMessage 1 "a" "A"; models.mkMessage 2 "b" "B"; models.mkMessage 3 "c" "C";
     models.mkMessage 4 "d" "D"; models.mkMessage 5 "e" "E"] 5 ∅ 0 [].

(** Three rows stored out of order. *)
Definition shuffled_rows : World :=
  mkWorld
    [models.mkMessage 3 "c" "C"; models.mkMessage 1 "a" "A"; models.mkMessage 2 "b" "B"]
    3 ∅ 0 [].

(** The second request of the end-to-end scenario: with "Hi there" cached for
    "Hello" and a generator that would raise, the request is served. *)
Definition greeted_world : World :=
  mkWorld [models.mkMessage 1 "Hello" "Hi there"] 1
    {[ "message:Hello" := (utf8 "Hi there", 300) ]} 0
    [RedisSetex "message:Hello" 300 "Hi there"; OpenAICall "Hello";
     RedisGet "message:Hello"].

Section App.

(** The outside world.  [sha256_hexdigest] is [hashlib.sha256(..).hexdigest()]
    on the UTF-8 bytes; [strip] is [str.strip]; [openai_chat n message] is
    the text of the first choice the chat endpoint returns when asked at
    trace position [n], or [None] when the call raises; [redis_down n]
    says whether the Redis command issued at trace position [n] raises. *)
Variable sha256_hexdigest : string -> string.
Variable strip : string -> string.
Variable openai_chat : nat -> string -> option string.
Variable redis_down : nat -> bool.

(** *** Redis commands

    [GET] answers [None] for a key that is missing or whose expiry has
    passed, and the stored bytes otherwise; [SETEX key seconds value]
    overwrites the key and makes it expire [seconds] from now, and refuses
    a non-positive [seconds].  redis-py sends the [str] [value] as its
    UTF-8 bytes. *)
Definition redis_client_get (key : string) : Handler (option bytes) :=
  fun w =>
    let w' := log (RedisGet key) w in
    if redis_down (length (trace w)) then (inl RedisError, w')
    else (inr (redis_value w key), w').

Definition redis_client_setex (key : string) (seconds : Z) (value : string)
  : Handler unit :=
  fun w =>
    let w' := log (RedisSetex key seconds value) w in
    if redis_down (length (trace w)) then (inl RedisError, w')
    else if bool_decide (seconds <= 0) then (inl RedisError, w')
    else (inr tt, set_redis (<[key := (utf8 value, now w + seconds)]> (redis w)) w').

(** *** Helper functions of main.py *)

Definition generate_response (message : string) : Handler string :=
  fun w =>
    let w' := log (OpenAICall message) w in
    match openai_chat (length (trace w)) message with
    | Some text => (inr (strip text), w')
    | None => (inl OpenAIError, w')
    end.

Definition generate_content_hash (content : string) : string :=
  sha256_hexdigest content.

Definition cache_key (content : string) : string :=
  "message:" +:+ generate_content_hash content.

Definition cache_response (content response : string) : Handler unit :=
  let key := cache_key content in
  redis_client_setex key 300 response.

Definition check_cache_for_content (content : string) : Handler (option string) :=
  let key := cache_key content in
  cached_response <~ redis_client_get key ;;
  match cached_response with
  | Some b =>
      if truthy_bytes (Some b) then
        match decode_utf8 b with
        | Some text => ret (Some text)
        | None => raise UnicodeDecodeError
        end
      else ret None
  | None => ret None
  end.

(** *** API endpoints *)

(** [POST /messages/].  Past the test [if cached_response:] the value is a
    non-empty [str]; [default] only names it. *)
Definition send_message (message : schemas.MessageCreate.t)
  : Handler schemas.Message.t :=
  cached_response <~
    check_cache_for_content (schemas.MessageCreate.content message) ;;
  if truthy cached_response then
    let cached := default "" cached_response in
    db_message <~ crud.create_message message cached ;;
    ret (schemas.Message.mk (models.id db_message)
           (schemas.MessageCreate.content message) cached)
  else
    response <~ generate_response (schemas.MessageCreate.content message) ;;
    db_message <~ crud.create_message message response ;;
    _ <~ cache_response (schemas.MessageCreate.content message) response ;;
    ret (schemas.Message.mk (models.id db_message) (models.content db_message)
           (models.response db_message)).

(** [GET /messages/], with the defaults of its signature. *)
Definition get_messages (skip limit : option Z) : Handler (list models.Message) :=
  messages <~ crud.get_messages (default 1 skip) (default 10 limit) ;;
  ret messages.

(** [PUT /messages/{message_id}] *)
Definition edit_message (message_id : Z) (request : EditMessageRequest)
  : Handler schemas.EditMessage.t :=
  let new_content := new_content request in
  response <~ generate_response new_content ;;
  message <~ crud.update_message message_id new_content response ;;
  match message with
  | None => raise (HTTPException 404 "Message not found")
  | Some message => ret (schemas.EditMessage.from_orm message)
  end.

(** The body of the answer to a [DELETE]. *)
Definition deleted_detail (n : nat) (message_id : Z) : string :=
  "Deleted " +:+ pretty n +:+ " messages starting from ID " +:+ pretty message_id.

(** [DELETE /messages/{message_id}] *)
Definition delete_message_and_following (message_id : Z) : Handler string :=
  messages_to_delete <~
    db_query_filter (fun m => message_id <= models.id m) ;;
  if negb (truthy_list messages_to_delete) then
    raise (HTTPException 404 "Message not found")
  else
    _ <~ for_each messages_to_delete db_delete ;;
    _ <~ db_commit ;;
    ret (deleted_detail (length messages_to_delete) message_id).

(** *** What the statements speak of *)

(** The row and the world a successful [send_message] leaves behind. *)
Definition appended (w : World) (content response : string) : models.Message :=
  models.mkMessage (id_seq w + 1) content response.

Definition after_hit (w : World) (content response : string) : World :=
  mkWorld (messages w ++ [appended w content response]) (id_seq w + 1)
    (redis w) (now w) (RedisGet (cache_key content) :: trace w).

Definition after_miss (w : World) (content response : string) : World :=
  mkWorld (messages w ++ [appended w content response]) (id_seq w + 1)
    (<[cache_key content := (utf8 response, now w + 300)]> (redis w)) (now w)
    (RedisSetex (cache_key content) 300 response :: OpenAICall content
       :: RedisGet (cache_key content) :: trace w).

(** The world after a generated answer was stored but the cache write
    raised: the row stays, the cache is as it was. *)
Definition after_failed_write (w : World) (content response : string) : World :=
  mkWorld (messages w ++ [appended w content response]) (id_seq w + 1)
    (redis w) (now w)
    (RedisSetex (cache_key content) 300 response :: OpenAICall content
       :: RedisGet (cache_key content) :: trace w).

(** What [send_message] does once the cache has answered with nothing it
    can use. *)
Definition generation_path (content : string) (w : World)
  : (Exn + schemas.Message.t) * World :=
  match openai_chat (S (length (trace w))) content with
  | None =>
      (inl OpenAIError, log (OpenAICall content) (log (RedisGet (cache_key content)) w))
  | Some text =>
      if redis_down (S (S (length (trace w)))) then
        (inl RedisError, after_failed_write w content (strip text))
      else
        (inr (schemas.Message.mk (id_seq w + 1) content (strip text)),
         after_miss w content (strip text))
  end.

Definition not_found : Exn := HTTPException 404 "Message not found".

(** The rows a [DELETE] selects, and the rows it leaves. *)
Definition from_id (message_id : Z) (ms : list models.Message) : list models.Message :=
  filter (fun m => message_id <= models.id m) ms.
Definition before_id (message_id : Z) (ms : list models.Message) : list models.Message :=
  filter (fun m => models.id m < message_id) ms.

Definition has_id (message_id : Z) (ms : list models.Message) : Prop :=
  Exists (fun m => models.id m = message_id) ms.

#[global] Instance has_id_dec message_id ms : Decision (has_id message_id ms).
Proof. unfold has_id. apply _. Defined.

Definition no_redis_event (evs : list Event) : Prop :=
  Forall (fun e => is_Redis e = false) evs.

(** A request reaching the application, by its route, or time passing
    between two requests. *)
Inductive Request :=
| POST_messages (message : schemas.MessageCreate.t)
| GET_messages (skip limit : option Z)
| PUT_message (message_id : Z) (request : EditMessageRequest)
| DELETE_message (message_id : Z)
| Wait (seconds : nat).

(** The world a request leaves behind, whatever it answers. *)
Definition serve (r : Request) (w : World) : World :=
  match r with
  | POST_messages message => (send_message message w).2
  | GET_messages skip limit => (get_messages skip limit w).2
  | PUT_message message_id request => (edit_message message_id request w).2
  | DELETE_message message_id => (delete_message_and_following message_id w).2
  | Wait seconds => tick (Z.of_nat seconds) w
  end.

Definition serve_all (rs : list Request) (w : World) : World :=
  foldl (fun w r => serve r w) w rs.

(** The routes whose handler calls [generate_response]. *)
Definition asks_generator (r : Request) : bool :=
  match r with
  | POST_messages _ | PUT_message _ _ => true
  | _ => false
  end.

Definition generator_calls (evs : list Event) : nat :=
  length (filter (fun e => is_OpenAICall e = true) evs).

(** The world after a [SETEX] that went through. *)
Definition after_setex (w : World) (key : string) (seconds : Z) (value : string) : World :=
  set_redis (<[key := (utf8 value, now w + seconds)]> (redis w))
    (log (RedisSetex key seconds value) w).


(** What [check_cache_for_content] makes of the answer to its [GET]. *)
Definition lookup_outcome (o : option bytes) : Exn + option string :=
  match o with
  | Some (utf8 text) => inr (if negb (String.eqb text "") then Some text else None)
  | Some (not_utf8 _) => inl UnicodeDecodeError
  | None => inr None
  end.


(** ** Basic facts *)

Lemma new_events_app (w w' : World) (evs : list Event) :
  trace w' = evs ++ trace w -> new_events w w' = evs.
Proof.
  intros E. unfold new_events. rewrite E, length_app.
  replace (length evs + length (trace w) - length (trace w))%nat
    with (length evs) by lia.
  apply take_app_length.
Qed.

Lemma truthy_Some (s : string) : truthy (Some s) = true <-> s <> "".
Proof.
  simpl. destruct (String.eqb_spec s ""); simpl; split; congruence.
Qed.

Lemma truthy_false (o : option string) :
  truthy o = false <-> o = None \/ o = Some "".
Proof.
  destruct o as [s|]; simpl.
  - destruct (String.eqb_spec s ""); simpl; split; intros; subst; auto;
      try discriminate.
    destruct H as [H|H]; [discriminate | congruence].
  - split; auto.
Qed.

Lemma truthy_bytes_false (o : option bytes) :
  truthy_bytes o = false <-> o = None \/ o = Some (utf8 "").
Proof.
  destruct o as [[text|raw]|]; cbn [truthy_bytes].
  - destruct (String.eqb_spec text ""); cbn [negb]; split; intros H; subst; auto;
      try discriminate.
    destruct H as [H|H]; [discriminate | congruence].
  - split; [discriminate|]. intros [H|H]; discriminate.
  - split; auto.
Qed.

Lemma redis_value_tick (w : World) (d : Z) (key : string) :
  redis_value (tick d w) key =
    match redis w !! key with
    | Some (v, expires) => if bool_decide (now w + d <= expires) then Some v else None
    | None => None
    end.
Proof. reflexivity. Qed.

Lemma redis_value_live (w : World) (key : string) (v : bytes) (expires : Z) :
  redis w !! key = Some (v, expires) -> now w <= expires ->
  redis_value w key = Some v.
Proof.
  intros Hentry Hlive. unfold redis_value.
  rewrite Hentry, bool_decide_eq_true_2 by exact Hlive. reflexivity.
Qed.

(** ** Facts about the helpers *)

Lemma check_cache_for_content_up (content : string) (w : World) :
  redis_down (length (trace w)) = false ->
  check_cache_for_content content w =
    (lookup_outcome (redis_value w (cache_key content)),
     log (RedisGet (cache_key content)) w).
Proof.
  intros Hup. unfold check_cache_for_content, bind, redis_client_get.
  rewrite Hup. destruct (redis_value w (cache_key content)) as [[text|raw]|];
    cbn [lookup_outcome truthy_bytes decode_utf8]; [|reflexivity|reflexivity].
  destruct (negb (String.eqb text "")); reflexivity.
Qed.

Lemma check_cache_for_content_down (content : string) (w : World) :
  redis_down (length (trace w)) = true ->
  check_cache_for_content content w =
    (inl RedisError, log (RedisGet (cache_key content)) w).
Proof.
  intros Hdown. unfold check_cache_for_content, bind, redis_client_get.
  rewrite Hdown. reflexivity.
Qed.

Lemma send_message_hit (content cached : string) (w : World) :
  redis_down (length (trace w)) = false ->
  redis_value w (cache_key content) = Some (utf8 cached) ->
  cached <> "" ->
  send_message (schemas.MessageCreate.mk content) w =
    (inr (schemas.Message.mk (id_seq w + 1) content cached),
     after_hit w content cached).
Proof.
  intros Hup Hval Hne. apply truthy_Some in Hne. cbn [truthy] in Hne.
  unfold send_message, bind at 1.
  rewrite check_cache_for_content_up by exact Hup.
  cbn [schemas.MessageCreate.content]. rewrite Hval.
  cbn [lookup_outcome]. rewrite Hne. cbn [truthy]. rewrite Hne.
  reflexivity.
Qed.

Lemma send_message_miss (content text : string) (w : World) :
  redis_down (length (trace w)) = false ->
  truthy_bytes (redis_value w (cache_key content)) = false ->
  openai_chat (S (length (trace w))) content = Some text ->
  redis_down (S (S (length (trace w)))) = false ->
  send_message (schemas.MessageCreate.mk content) w =
    (inr (schemas.Message.mk (id_seq w + 1) content (strip text)),
     after_miss w content (strip text)).
Proof.
  intros Hup Hmiss Hgen Hup2.
  unfold send_message, bind at 1.
  rewrite check_cache_for_content_up by exact Hup.
  cbn [schemas.MessageCreate.content].
  assert (Hout : lookup_outcome (redis_value w (cache_key content)) = inr None).
  { apply truthy_bytes_false in Hmiss as [-> | ->]; reflexivity. }
  rewrite Hout. cbn [truthy].
  unfold bind, generate_response, cache_response,
    redis_client_setex, crud.create_message. simpl.
  rewrite Hgen. simpl. rewrite Hup2. reflexivity.
Qed.

(** ** Cascading delete *)

Lemma filter_ext_elem {A} (P Q : A -> Prop)
  `{forall x, Decision (P x)} `{forall x, Decision (Q x)} (l : list A) :
  (forall x, x ∈ l -> (P x <-> Q x)) -> filter P l = filter Q l.
Proof.
  induction l as [|a l IH]; intros Hext; [reflexivity|].
  rewrite !filter_cons.
  assert (Ha : P a <-> Q a) by (apply Hext; left).
  rewrite IH by (intros x Hx; apply Hext; right; exact Hx).
  destruct (decide (P a)), (decide (Q a)); tauto.
Qed.

(** The loop of [db.delete] calls removes the rows whose key is among the
    keys of the rows it was given. *)
Lemma for_each_db_delete (l : list models.Message) (w : World) :
  for_each l db_delete w =
    (inr tt,
     set_messages
       (filter (fun m => models.id m ∉ models.id <$> l) (messages w)) w).
Proof.
  revert w. induction l as [|x l IH]; intros w.
  - simpl. unfold ret, set_messages. f_equal. destruct w as [ms ? ? ? ?]; simpl.
    f_equal. symmetry. induction ms as [|m ms IHms]; [reflexivity|].
    rewrite filter_cons_True by apply not_elem_of_nil. f_equal. exact IHms.
  - cbn [for_each]. unfold bind at 1. unfold db_delete at 1.
    rewrite IH. unfold set_messages; simpl. do 2 f_equal.
    rewrite list_filter_filter. apply list_filter_iff.
    intros m. rewrite not_elem_of_cons. tauto.
Qed.

Lemma delete_from_id_rows (message_id : Z) (ms : list models.Message) :
  filter (fun m => models.id m ∉ models.id <$> from_id message_id ms) ms =
    before_id message_id ms.
Proof.
  apply filter_ext_elem. intros m Hm. split.
  - intros Hnot. destruct (decide (message_id <= models.id m)) as [Hge|Hlt]; [|lia].
    exfalso. apply Hnot. apply list_elem_of_fmap. exists m. split; [reflexivity|].
    apply list_elem_of_filter. auto.
  - intros Hlt Hin. apply list_elem_of_fmap in Hin as (m' & Hid & Hm').
    apply list_elem_of_filter in Hm' as [Hge _]. lia.
Qed.

Lemma from_id_before_id (message_id : Z) (ms : list models.Message) :
  from_id message_id (before_id message_id ms) = [].
Proof.
  unfold from_id, before_id. induction ms as [|m ms IH]; [reflexivity|].
  rewrite filter_cons. destruct (decide (models.id m < message_id)).
  - rewrite filter_cons_False by lia. exact IH.
  - exact IH.
Qed.

Lemma length_from_before (message_id : Z) (ms : list models.Message) :
  length ms = (length (before_id message_id ms) + length (from_id message_id ms))%nat.
Proof.
  unfold from_id, before_id. induction ms as [|m ms IH]; [reflexivity|].
  rewrite !filter_cons.
  destruct (decide (models.id m < message_id)), (decide (message_id <= models.id m));
    simpl; lia.
Qed.

Lemma delete_nothing (message_id : Z) (w : World) :
  from_id message_id (messages w) = [] ->
  delete_message_and_following message_id w = (inl not_found, w).
Proof.
  intros Hnone. unfold delete_message_and_following, bind, db_query_filter.
  fold (from_id message_id (messages w)). rewrite Hnone. reflexivity.
Qed.

Lemma delete_some (message_id : Z) (w : World) :
  from_id message_id (messages w) <> [] ->
  delete_message_and_following message_id w =
    (inr (deleted_detail (length (from_id message_id (messages w))) message_id),
     set_messages (before_id message_id (messages w)) w).
Proof.
  intros Hsome. unfold delete_message_and_following, bind at 1, db_query_filter.
  fold (from_id message_id (messages w)).
  destruct (from_id message_id (messages w)) as [|m l] eqn:E; [congruence|].
  cbn [truthy_list negb]. unfold bind at 1. rewrite for_each_db_delete.
  rewrite <- E, delete_from_id_rows. reflexivity.
Qed.

(** C4.  [DELETE /messages/{message_id}] removes exactly the rows whose id
    is at least [message_id]: the rows with a smaller id stay as they were
    and in place, the answer carries the number of rows removed, and when
    no row has such an id the request ends with 404 and changes nothing;
    so the same [DELETE] repeated after a successful one ends with 404. *)
Theorem delete_message_and_following_spec (message_id : Z) (w : World) :
  let doomed := from_id message_id (messages w) in
  let kept := before_id message_id (messages w) in
  (doomed = [] ->
     delete_message_and_following message_id w = (inl not_found, w))
  /\ (doomed <> [] ->
       delete_message_and_following message_id w =
         (inr (deleted_detail (length doomed) message_id), set_messages kept w)
       /\ (forall m, m ∈ kept <-> m ∈ messages w /\ models.id m < message_id)
       /\ (forall m, m ∈ doomed <-> m ∈ messages w /\ message_id <= models.id m)
       /\ length (messages w) = (length kept + length doomed)%nat
       /\ delete_message_and_following message_id (set_messages kept w) =
            (inl not_found, set_messages kept w)).
Proof.
  intros doomed kept. split.
  - apply delete_nothing.
  - intros Hsome. split; [apply delete_some; exact Hsome|].
    split; [intros m; unfold kept, before_id; rewrite list_elem_of_filter; tauto|].
    split; [intros m; unfold doomed, from_id; rewrite list_elem_of_filter; tauto|].
    split; [apply length_from_before|].
    apply delete_nothing. apply from_id_before_id.
Qed.

(** ** The paths of [send_message] *)

Lemma send_message_run (content : string) (w : World) :
  send_message (schemas.MessageCreate.mk content) w =
    if redis_down (length (trace w)) then
      (inl RedisError, log (RedisGet (cache_key content)) w)
    else
      match redis_value w (cache_key content) with
      | Some (utf8 cached) =>
          if truthy (Some cached) then
            (inr (schemas.Message.mk (id_seq w + 1) content cached),
             after_hit w content cached)
          else generation_path content w
      | Some (not_utf8 _) =>
          (inl UnicodeDecodeError, log (RedisGet (cache_key content)) w)
      | None => generation_path content w
      end.
Proof.
  unfold send_message, bind at 1.
  destruct (redis_down (length (trace w))) eqn:Hdown.
  - rewrite check_cache_for_content_down by exact Hdown. reflexivity.
  - rewrite check_cache_for_content_up by exact Hdown.
    cbn [schemas.MessageCreate.content].
    assert (Hgen :
      (response <~ generate_response content;;
       db_message <~ crud.create_message (schemas.MessageCreate.mk content) response;;
       _ <~ cache_response content response;;
       ret (schemas.Message.mk (models.id db_message) (models.content db_message)
              (models.response db_message)))
        (log (RedisGet (cache_key content)) w) = generation_path content w).
    { unfold generation_path, bind, generate_response, cache_response,
        redis_client_setex, crud.create_message. simpl.
      destruct (openai_chat (S (length (trace w))) content); [|reflexivity].
      simpl. destruct (redis_down (S (S (length (trace w))))); reflexivity. }
    destruct (redis_value w (cache_key content)) as [[cached|raw]|] eqn:Hval;
      cbn [lookup_outcome].
    + cbn [truthy]. destruct (negb (String.eqb cached "")) eqn:Ht.
      * cbn [truthy]. rewrite Ht. reflexivity.
      * exact Hgen.
    + reflexivity.
    + exact Hgen.
Qed.

Lemma send_message_nothing_usable (content : string) (w : World) :
  redis_down (length (trace w)) = false ->
  truthy_bytes (redis_value w (cache_key content)) = false ->
  send_message (schemas.MessageCreate.mk content) w = generation_path content w.
Proof.
  intros Hup Hmiss. rewrite send_message_run, Hup.
  apply truthy_bytes_false in Hmiss as [-> | ->]; reflexivity.
Qed.

(** ** Cache failures *)

(** C3, as amended.  [send_message] has no handler around its Redis
    calls: when the cache read raises, the request ends with that error
    before the generator is asked or a row is appended; when the cache
    write raises, the request ends with that error after the generator was
    asked once and the row was appended, and the cache is left as it was. *)
Theorem cache_failure_propagates (content : string) (w : World) :
  (redis_down (length (trace w)) = true ->
     send_message (schemas.MessageCreate.mk content) w =
       (inl RedisError, log (RedisGet (cache_key content)) w))
  /\ (forall text,
        redis_down (length (trace w)) = false ->
        truthy_bytes (redis_value w (cache_key content)) = false ->
        openai_chat (S (length (trace w))) content = Some text ->
        redis_down (S (S (length (trace w)))) = true ->
        send_message (schemas.MessageCreate.mk content) w =
          (inl RedisError, after_failed_write w content (strip text))).
Proof.
  split.
  - intros Hdown. rewrite send_message_run, Hdown. reflexivity.
  - intros text Hup Hmiss Hgen Hdown. rewrite send_message_run, Hup.
    assert (Hpath : generation_path content w =
              (inl RedisError, after_failed_write w content (strip text))).
    { unfold generation_path. rewrite Hgen, Hdown. reflexivity. }
    apply truthy_bytes_false in Hmiss as [Hmiss | Hmiss]; rewrite Hmiss; exact Hpath.
Qed.

(** ** Generator failures *)

(** C6.  A [send_message] that ends with the generator's error has
    appended no row, has not advanced the id sequence, has written no
    cache entry (no [SETEX] was issued) and leaves the cache as it was. *)
Theorem generation_failure_writes_nothing
  (message : schemas.MessageCreate.t) (w w' : World) :
  send_message message w = (inl OpenAIError, w') ->
  messages w' = messages w /\ id_seq w' = id_seq w /\ redis w' = redis w
  /\ new_events w w' =
       [OpenAICall (schemas.MessageCreate.content message);
        RedisGet (cache_key (schemas.MessageCreate.content message))].
Proof.
  destruct message as [content]. cbn [schemas.MessageCreate.content].
  rewrite send_message_run.
  assert (Hpath : generation_path content w = (inl OpenAIError, w') ->
    messages w' = messages w /\ id_seq w' = id_seq w /\ redis w' = redis w
    /\ new_events w w' = [OpenAICall content; RedisGet (cache_key content)]).
  { unfold generation_path.
    destruct (openai_chat (S (length (trace w))) content).
    - destruct (redis_down (S (S (length (trace w))))); discriminate.
    - intros [= <-]. repeat split. apply new_events_app. reflexivity. }
  destruct (redis_down (length (trace w))); [discriminate|].
  destruct (redis_value w (cache_key content)) as [[cached|raw]|];
    [|discriminate|exact Hpath].
  destruct (truthy (Some cached)); [discriminate | exact Hpath].
Qed.

(** The generator's failure does end the request that way. *)
Lemma send_message_generator_fails (content : string) (w : World) :
  redis_down (length (trace w)) = false ->
  truthy_bytes (redis_value w (cache_key content)) = false ->
  openai_chat (S (length (trace w))) content = None ->
  send_message (schemas.MessageCreate.mk content) w =
    (inl OpenAIError,
     log (OpenAICall content) (log (RedisGet (cache_key content)) w)).
Proof.
  intros Hup Hmiss Hgen. rewrite send_message_run, Hup.
  assert (Hpath : generation_path content w =
    (inl OpenAIError, log (OpenAICall content) (log (RedisGet (cache_key content)) w))).
  { unfold generation_path. rewrite Hgen. reflexivity. }
  apply truthy_bytes_false in Hmiss as [Hmiss | Hmiss]; rewrite Hmiss; exact Hpath.
Qed.

(** ** Editing *)

Lemma update_message_found (message_id : Z) (c r : string) (w : World) :
  has_id message_id (messages w) ->
  exists i old,
    messages w !! i = Some old /\ models.id old = message_id
    /\ (forall j m, messages w !! j = Some m -> models.id m = message_id -> (i <= j)%nat)
    /\ crud.update_message message_id c r w =
         (inr (Some (models.mkMessage message_id c r)),
          set_messages (<[i := models.mkMessage message_id c r]> (messages w)) w).
Proof.
  intros (m & Hm & Hid)%Exists_exists. unfold crud.update_message.
  destruct (list_find_elem_of (fun m => models.id m = message_id) _ m Hm Hid)
    as [[i old] Hfind].
  rewrite Hfind. apply list_find_Some in Hfind as (Hi & Hold & Hfirst).
  exists i, old. rewrite Hold. repeat split; try assumption.
  intros j m' Hj Hm'. destruct (decide (i <= j)%nat) as [|Hlt]; [assumption|].
  exfalso. apply (Hfirst j m' Hj); [lia | exact Hm'].
Qed.

Lemma update_message_missing (message_id : Z) (c r : string) (w : World) :
  ~ has_id message_id (messages w) ->
  crud.update_message message_id c r w = (inr None, w).
Proof.
  intros Hno. unfold crud.update_message.
  destruct (list_find _ _) as [[i m]|] eqn:Hfind; [|reflexivity].
  exfalso. apply list_find_Some in Hfind as (Hi & Hid & _).
  apply Hno, Exists_exists. exists m. split; [|exact Hid].
  apply list_elem_of_lookup. exists i. exact Hi.
Qed.

(** C5.  [edit_message] asks the generator for the new content as its
    first and only call to an outside service (no cache lookup comes
    before or after it).  With the generator's answer in hand, a row of
    that id gets the new content and the new answer in place of what it
    held, whatever that was, and the request returns them; when no row has
    that id the request ends with 404 and the table is as it was. *)
Theorem edit_message_spec
  (message_id : Z) (request : EditMessageRequest) (text : string) (w : World) :
  openai_chat (length (trace w)) (new_content request) = Some text ->
  let fresh := models.mkMessage message_id (new_content request) (strip text) in
  let w1 := log (OpenAICall (new_content request)) w in
  new_events w (edit_message message_id request w).2 =
    [OpenAICall (new_content request)]
  /\ (has_id message_id (messages w) ->
       exists i old,
         messages w !! i = Some old /\ models.id old = message_id
         /\ edit_message message_id request w =
              (inr (schemas.EditMessage.from_orm fresh),
               set_messages (<[i := fresh]> (messages w)) w1)
         /\ <[i := fresh]> (messages w) !! i = Some fresh)
  /\ (~ has_id message_id (messages w) ->
       edit_message message_id request w = (inl not_found, w1)).
Proof.
  intros Hgen fresh w1.
  assert (Hrun : edit_message message_id request w =
    match crud.update_message message_id (new_content request) (strip text) w1 with
    | (inr (Some m), w2) => (inr (schemas.EditMessage.from_orm m), w2)
    | (inr None, w2) => (inl not_found, w2)
    | (inl e, w2) => (inl e, w2)
    end).
  { unfold edit_message, bind at 1, generate_response. rewrite Hgen.
    unfold bind. fold w1.
    destruct (crud.update_message _ _ _ w1) as [[e|[m|]] w2]; reflexivity. }
  destruct (decide (has_id message_id (messages w))) as [Hyes|Hno].
  - destruct (update_message_found message_id (new_content request) (strip text) w1 Hyes)
      as (i & old & Hi & Hid & _ & Hupd).
    rewrite Hrun, Hupd. split; [apply new_events_app; reflexivity|].
    split; [|intros Hno; destruct (Hno Hyes)].
    intros _. exists i, old. repeat split; try assumption.
    apply list_lookup_insert_eq. apply lookup_lt_Some in Hi. exact Hi.
  - rewrite Hrun, (update_message_missing _ _ _ w1 Hno).
    split; [apply new_events_app; reflexivity|].
    split; [intros Hyes; destruct (Hno Hyes) | reflexivity].
Qed.

(** When the generator raises, the edit ends with that error whether or
    not the row exists: the table is not looked at. *)
Lemma edit_message_generator_fails
  (message_id : Z) (request : EditMessageRequest) (w : World) :
  openai_chat (length (trace w)) (new_content request) = None ->
  edit_message message_id request w =
    (inl OpenAIError, log (OpenAICall (new_content request)) w).
Proof.
  intros Hgen. unfold edit_message, bind, generate_response.
  rewrite Hgen. reflexivity.
Qed.

(** ** The cache under edits and deletions *)

(** C7.  Neither [edit_message] nor [delete_message_and_following] issues a
    Redis command, and both leave the Redis store, hence what every key
    reads as, exactly as it was, whichever rows they change and however they
    end. *)
Theorem edit_and_delete_leave_the_cache :
  (forall message_id request w,
     let w' := (edit_message message_id request w).2 in
     redis w' = redis w /\ no_redis_event (new_events w w')
     /\ forall key, redis_value w' key = redis_value w key)
  /\ (forall message_id w,
       let w' := (delete_message_and_following message_id w).2 in
       redis w' = redis w /\ no_redis_event (new_events w w')
       /\ forall key, redis_value w' key = redis_value w key).
Proof.
  split.
  - intros message_id request w.
    assert (Hw : exists ms,
      (edit_message message_id request w).2 =
        set_messages ms (log (OpenAICall (new_content request)) w)).
    { unfold edit_message, bind at 1, generate_response.
      destruct (openai_chat (length (trace w)) (new_content request)) as [text|].
      - unfold bind, crud.update_message. cbn [messages log].
        destruct (list_find _ (messages w)) as [[i m]|]; cbn [snd]; eauto.
      - exists (messages w). reflexivity. }
    destruct Hw as [ms ->]. split; [reflexivity|]. split; [|reflexivity].
    rewrite (new_events_app w _ [OpenAICall (new_content request)]) by reflexivity.
    repeat constructor.
  - intros message_id w.
    assert (Hw : exists ms,
      (delete_message_and_following message_id w).2 = set_messages ms w).
    { destruct (decide (from_id message_id (messages w) = [])) as [Hnone|Hsome].
      - rewrite delete_nothing by exact Hnone. exists (messages w).
        destruct w; reflexivity.
      - rewrite delete_some by exact Hsome. eauto. }
    destruct Hw as [ms ->]. split; [reflexivity|]. split; [|reflexivity].
    rewrite (new_events_app w _ []) by reflexivity. constructor.
Qed.

(** ** Expiry *)

(** C8, as amended.  [cache_response] stores its entry with an expiry
    exactly 300 seconds after the instant of the write: until then, that
    instant included, Redis still holds the response; at any later time a
    lookup of that content never yields a value, whether Redis answers or
    not. *)
Theorem cache_response_expires_after_300 (content response : string) (w : World) :
  redis_down (length (trace w)) = false ->
  exists w',
    cache_response content response w = (inr tt, w')
    /\ now w' = now w
    /\ redis w' !! cache_key content = Some (utf8 response, now w + 300)
    /\ (forall d, 300 < d ->
         redis_value (tick d w') (cache_key content) = None
         /\ forall cached,
              (check_cache_for_content content (tick d w')).1 <> inr (Some cached))
    /\ (forall d, 0 <= d <= 300 ->
         redis_value (tick d w') (cache_key content) = Some (utf8 response)).
Proof.
  intros Hup. unfold cache_response, redis_client_setex. rewrite Hup.
  cbn [bool_decide decide_rel]. rewrite bool_decide_eq_false_2 by lia.
  eexists. split; [reflexivity|]. split; [reflexivity|].
  assert (Hentry : forall d,
    redis_value
      (tick d (set_redis (<[cache_key content := (utf8 response, now w + 300)]> (redis w))
                 (log (RedisSetex (cache_key content) 300 response) w)))
      (cache_key content)
    = if bool_decide (now w + d <= now w + 300) then Some (utf8 response) else None).
  { intros d. rewrite redis_value_tick. cbn [redis set_redis now log].
    rewrite lookup_insert_eq. reflexivity. }
  split; [cbn [redis set_redis]; apply lookup_insert_eq|]. split.
  - intros d Hd.
    assert (Hgone : redis_value
      (tick d (set_redis (<[cache_key content := (utf8 response, now w + 300)]> (redis w))
                 (log (RedisSetex (cache_key content) 300 response) w)))
      (cache_key content) = None).
    { rewrite Hentry. rewrite bool_decide_eq_false_2 by lia. reflexivity. }
    split; [exact Hgone|]. intros cached.
    destruct (redis_down (length (trace
      (tick d (set_redis (<[cache_key content := (utf8 response, now w + 300)]> (redis w))
                 (log (RedisSetex (cache_key content) 300 response) w)))))) eqn:Hd'.
    + rewrite check_cache_for_content_down by exact Hd'. discriminate.
    + rewrite check_cache_for_content_up by exact Hd'. rewrite Hgone. discriminate.
  - intros d Hd. rewrite Hentry. rewrite bool_decide_eq_true_2 by lia. reflexivity.
Qed.

(** ** Empty cached responses *)

(** C10.  When the live cache entry of a content holds the empty string,
    [check_cache_for_content] answers [None] as it does for a missing key,
    and [send_message] goes on to ask the generator for that content. *)
Theorem empty_cached_response_is_a_miss (content : string) (expires : Z) (w : World) :
  redis w !! cache_key content = Some (utf8 "", expires) ->
  now w < expires ->
  redis_down (length (trace w)) = false ->
  redis_value w (cache_key content) = Some (utf8 "")
  /\ check_cache_for_content content w =
       (inr None, log (RedisGet (cache_key content)) w)
  /\ exists evs,
       trace (send_message (schemas.MessageCreate.mk content) w).2 =
         evs ++ OpenAICall content :: RedisGet (cache_key content) :: trace w.
Proof.
  intros Hentry Hlive Hup.
  assert (Hval : redis_value w (cache_key content) = Some (utf8 "")).
  { apply (redis_value_live w _ _ expires); [exact Hentry | lia]. }
  split; [exact Hval|]. split.
  - rewrite check_cache_for_content_up by exact Hup. rewrite Hval. reflexivity.
  - rewrite send_message_run, Hup, Hval. cbn [truthy String.eqb negb].
    unfold generation_path.
    destruct (openai_chat (S (length (trace w))) content) as [text|].
    + destruct (redis_down (S (S (length (trace w)))));
        exists [RedisSetex (cache_key content) 300 (strip text)]; reflexivity.
    + exists []. reflexivity.
Qed.

(** ** Listing *)

Lemma StronglySorted_take_drop {A} (R : relation A) (l : list A) (n k : nat) :
  StronglySorted R l -> StronglySorted R (take n (drop k l)).
Proof.
  intros Hl.
  assert (Hd : StronglySorted R (drop k l)).
  { rewrite <- (take_drop k l) in Hl. eapply StronglySorted_app_1_r, Hl. }
  rewrite <- (take_drop n (drop k l)) in Hd. eapply StronglySorted_app_1_l, Hd.
Qed.

(** C9.  [get_messages] answers with the rows in ascending order of id,
    leaving out the first [skip] of them and giving at most [limit]; a
    request that names neither gets [skip = 1] and [limit = 10], so it
    misses the row of the smallest id. *)
Theorem get_messages_spec (skip limit : Z) (w : World) :
  0 <= skip -> 0 <= limit ->
  exists sorted page,
    sorted ≡ₚ messages w
    /\ StronglySorted id_le sorted
    /\ get_messages (Some skip) (Some limit) w = (inr page, w)
    /\ page = take (Z.to_nat limit) (drop (Z.to_nat skip) sorted)
    /\ StronglySorted id_le page
    /\ (Z.of_nat (length page) <= limit)
    /\ (forall i, (i < Z.to_nat limit)%nat ->
         page !! i = sorted !! (Z.to_nat skip + i)%nat)
    /\ get_messages None None w = get_messages (Some 1) (Some 10) w.
Proof.
  intros Hskip Hlimit.
  exists (merge_sort id_le (messages w)),
    (take (Z.to_nat limit) (drop (Z.to_nat skip) (merge_sort id_le (messages w)))).
  split; [apply merge_sort_Permutation|].
  split; [apply StronglySorted_merge_sort; apply _|].
  split; [reflexivity|]. split; [reflexivity|].
  split; [apply StronglySorted_take_drop, StronglySorted_merge_sort; apply _|].
  split; [rewrite length_take; lia|].
  split; [|reflexivity].
  intros i Hi. rewrite lookup_take_lt by exact Hi. apply lookup_drop.
Qed.

(** ** A generated answer is served again *)

(** X2.  A miss on a content whose generated answer is not empty asks the
    generator once, appends the row and writes the cache entry that the next
    request for it, less than 300 seconds later, is served from: that
    request asks the generator nothing. *)
Lemma send_message_miss_then_hit (content text : string) (d : Z) (w : World) :
  redis_down (length (trace w)) = false ->
  truthy_bytes (redis_value w (cache_key content)) = false ->
  openai_chat (S (length (trace w))) content = Some text ->
  redis_down (S (S (length (trace w)))) = false ->
  strip text <> "" ->
  0 <= d < 300 ->
  redis_down (S (S (S (length (trace w))))) = false ->
  let w1 := after_miss w content (strip text) in
  send_message (schemas.MessageCreate.mk content) w =
    (inr (schemas.Message.mk (id_seq w + 1) content (strip text)), w1)
  /\ new_events w w1 =
       [RedisSetex (cache_key content) 300 (strip text); OpenAICall content;
        RedisGet (cache_key content)]
  /\ send_message (schemas.MessageCreate.mk content) (tick d w1) =
       (inr (schemas.Message.mk (id_seq w + 2) content (strip text)),
        after_hit (tick d w1) content (strip text))
  /\ new_events (tick d w1) (after_hit (tick d w1) content (strip text)) =
       [RedisGet (cache_key content)].
Proof.
  intros Hup Hmiss Hgen Hup2 Hne Hd Hup3 w1.
  split; [apply send_message_miss; assumption|].
  split; [apply new_events_app; reflexivity|].
  split; [|apply new_events_app; reflexivity].
  rewrite (send_message_hit content (strip text)).
  - cbn [id_seq tick after_miss w1]. replace (id_seq w + 1 + 1) with (id_seq w + 2) by lia.
    reflexivity.
  - exact Hup3.
  - rewrite redis_value_tick. cbn [redis now w1 after_miss].
    rewrite lookup_insert_eq, bool_decide_eq_true_2 by lia. reflexivity.
  - exact Hne.
Qed.

(** ** A cached answer is served without the generator *)

(** X1.  When Redis is reachable and holds for a content, not yet expired,
    the UTF-8 bytes of a non-empty response, [send_message] appends a row
    with that content and that response, returns it, and its only call to an
    outside service is the cache lookup: the generator is not asked and the
    cache is not written. *)
Theorem cache_hit_skips_generation (content cached : string) (expires : Z) (w : World) :
  redis w !! cache_key content = Some (utf8 cached, expires) ->
  now w <= expires ->
  cached <> "" ->
  redis_down (length (trace w)) = false ->
  exists w',
    send_message (schemas.MessageCreate.mk content) w =
      (inr (schemas.Message.mk (id_seq w + 1) content cached), w')
    /\ messages w' = messages w ++ [models.mkMessage (id_seq w + 1) content cached]
    /\ redis w' = redis w
    /\ new_events w w' = [RedisGet (cache_key content)].
Proof.
  intros Hentry Hlive Hne Hup. exists (after_hit w content cached).
  split; [|split; [reflexivity|split; [reflexivity|apply new_events_app; reflexivity]]].
  apply send_message_hit; [exact Hup| |exact Hne].
  apply (redis_value_live w _ _ expires); assumption.
Qed.

(** ** The cache helpers on their own *)

Lemma cache_response_up (content response : string) (w : World) :
  redis_down (length (trace w)) = false ->
  cache_response content response w =
    (inr tt, after_setex w (cache_key content) 300 response).
Proof.
  intros Hup. unfold cache_response, redis_client_setex. rewrite Hup.
  rewrite bool_decide_eq_false_2 by lia. reflexivity.
Qed.

Lemma cache_response_down (content response : string) (w : World) :
  redis_down (length (trace w)) = true ->
  cache_response content response w =
    (inl RedisError, log (RedisSetex (cache_key content) 300 response) w).
Proof.
  intros Hdown. unfold cache_response, redis_client_setex. rewrite Hdown.
  reflexivity.
Qed.

Lemma cache_key_inj (content content' : string) :
  cache_key content = cache_key content' <->
  sha256_hexdigest content = sha256_hexdigest content'.
Proof.
  unfold cache_key, generate_content_hash. split.
  - cbn. intros H. injection H as H. exact H.
  - intros ->. reflexivity.
Qed.

(** X3.  [check_cache_for_content] only reads: the world it leaves differs
    from the one it found by the one [GET] it issued.  It returns a response
    exactly when Redis answers and holds under the key of that content,
    unexpired, the UTF-8 bytes of a non-empty response; it returns [None]
    exactly when Redis answers and the key is missing, expired or holds the
    empty byte string; it raises Redis's error exactly when Redis does, and
    [UnicodeDecodeError] exactly when Redis answers with unexpired bytes
    that are not UTF-8. *)
Theorem check_cache_for_content_reads_only (content : string) (w : World) :
  (check_cache_for_content content w).2 = log (RedisGet (cache_key content)) w
  /\ (forall cached,
        (check_cache_for_content content w).1 = inr (Some cached) <->
        redis_down (length (trace w)) = false
        /\ redis_value w (cache_key content) = Some (utf8 cached) /\ cached <> "")
  /\ ((check_cache_for_content content w).1 = inr None <->
      redis_down (length (trace w)) = false
      /\ truthy_bytes (redis_value w (cache_key content)) = false)
  /\ ((check_cache_for_content content w).1 = inl RedisError <->
      redis_down (length (trace w)) = true)
  /\ ((check_cache_for_content content w).1 = inl UnicodeDecodeError <->
      redis_down (length (trace w)) = false
      /\ exists raw, redis_value w (cache_key content) = Some (not_utf8 raw)).
Proof.
  destruct (redis_down (length (trace w))) eqn:Hdown.
  - rewrite check_cache_for_content_down by exact Hdown. cbn [fst snd].
    split; [reflexivity|]. split; [|split; [|split]].
    + intros cached. split; [discriminate|]. intros [H _]. discriminate.
    + split; [discriminate|]. intros [H _]. discriminate.
    + split; reflexivity.
    + split; [discriminate|]. intros [H _]. discriminate.
  - rewrite check_cache_for_content_up by exact Hdown. cbn [fst snd].
    split; [reflexivity|].
    destruct (redis_value w (cache_key content)) as [[text|raw]|];
      cbn [lookup_outcome truthy_bytes].
    + destruct (negb (String.eqb text "")) eqn:Ht.
      * assert (Hne : text <> "") by (apply truthy_Some; exact Ht).
        split; [|split; [|split]].
        -- intros cached. split.
           ++ intros [= ->]. auto.
           ++ intros (_ & [= ->] & _). reflexivity.
        -- split; [discriminate|]. intros [_ H]. discriminate.
        -- split; discriminate.
        -- split; [discriminate|]. intros (_ & raw & H). discriminate.
      * split; [|split; [|split]].
        -- intros cached. split; [discriminate|]. intros (_ & [= ->] & Hne).
           apply truthy_Some in Hne. cbn [truthy] in Hne. congruence.
        -- split; auto.
        -- split; discriminate.
        -- split; [discriminate|]. intros (_ & raw & H). discriminate.
    + split; [|split; [|split]].
      * intros cached. split; [discriminate|]. intros (_ & H & _). discriminate.
      * split; [discriminate|]. intros [_ H]. discriminate.
      * split; discriminate.
      * split; [|reflexivity]. intros _. split; [reflexivity|]. exists raw. reflexivity.
    + split; [|split; [|split]].
      * intros cached. split; [discriminate|]. intros (_ & H & _). discriminate.
      * split; auto.
      * split; discriminate.
      * split; [discriminate|]. intros (_ & raw & H). discriminate.
Qed.

(** X4.  What [cache_response] wrote is what [check_cache_for_content]
    reads back for that content during the next 300 seconds, except that an
    empty response, stored like any other, reads back as nothing. *)
Theorem cache_response_then_check (content response : string) (d : Z) (w : World) :
  redis_down (length (trace w)) = false ->
  redis_down (S (length (trace w))) = false ->
  0 <= d < 300 ->
  (check_cache_for_content content
     (tick d (cache_response content response w).2)).1 =
    inr (if decide (response = "") then None else Some response).
Proof.
  intros Hup Hup' Hd. rewrite cache_response_up by exact Hup. cbn [snd].
  rewrite check_cache_for_content_up by exact Hup'. cbn [fst].
  rewrite redis_value_tick. cbn [redis now after_setex set_redis log].
  rewrite lookup_insert_eq, bool_decide_eq_true_2 by lia. cbn [lookup_outcome].
  destruct (decide (response = "")) as [->|Hne]; [reflexivity|].
  apply truthy_Some in Hne. cbn [truthy] in Hne. rewrite Hne. reflexivity.
Qed.

(** X5.  Cache entries belong to digests: after [cache_response] for one
    content, a content of the same digest reads the bytes of that response
    until 300 seconds have passed, that instant included, and nothing
    later; a content of another digest reads what it read before the
    write. *)
Theorem cache_entries_are_per_digest
  (content content' response : string) (d : Z) (w : World) :
  redis_down (length (trace w)) = false ->
  let w' := tick d (cache_response content response w).2 in
  (sha256_hexdigest content' = sha256_hexdigest content ->
     redis_value w' (cache_key content') =
       if bool_decide (d <= 300) then Some (utf8 response) else None)
  /\ (sha256_hexdigest content' <> sha256_hexdigest content ->
       redis_value w' (cache_key content') = redis_value (tick d w) (cache_key content')).
Proof.
  intros Hup w'. unfold w'. rewrite cache_response_up by exact Hup. cbn [snd].
  rewrite !redis_value_tick. cbn [redis now after_setex set_redis log]. split.
  - intros Hsame. apply cache_key_inj in Hsame. rewrite Hsame, lookup_insert_eq.
    destruct (decide (d <= 300)).
    + rewrite !bool_decide_eq_true_2 by lia. reflexivity.
    + rewrite !bool_decide_eq_false_2 by lia. reflexivity.
  - intros Hother. rewrite lookup_insert_ne; [reflexivity|].
    intros Hk. apply Hother. symmetry. apply cache_key_inj. exact Hk.
Qed.

(** X6.  The last write wins and restarts the clock: after two
    [cache_response] for one content, any time apart, the entry holds the
    bytes of the second response and expires 300 seconds after the second
    write; the content reads them until then, that instant included, and
    nothing later. *)
Theorem cache_response_overwrites
  (content first second : string) (between : nat) (d : Z) (w : World) :
  redis_down (length (trace w)) = false ->
  redis_down (S (length (trace w))) = false ->
  let w1 := tick (Z.of_nat between) (cache_response content first w).2 in
  let w2 := (cache_response content second w1).2 in
  redis w2 !! cache_key content = Some (utf8 second, now w1 + 300)
  /\ redis_value (tick d w2) (cache_key content) =
       if bool_decide (d <= 300) then Some (utf8 second) else None.
Proof.
  intros Hup Hup' w1 w2. unfold w2, w1.
  rewrite (cache_response_up content first w) by exact Hup. cbn [snd].
  rewrite cache_response_up by exact Hup'. cbn [snd].
  rewrite redis_value_tick. cbn [redis now after_setex set_redis log tick].
  rewrite !lookup_insert_eq. split; [reflexivity|].
  destruct (decide (d <= 300)).
  - rewrite !bool_decide_eq_true_2 by lia. reflexivity.
  - rewrite !bool_decide_eq_false_2 by lia. reflexivity.
Qed.

(** ** What a request does to the outside services *)

(** X7.  Whatever happens, [send_message] talks to the outside services in
    one of three ways: the cache lookup alone; the lookup, then the
    generator; the lookup, the generator, then the cache write of what the
    generator answered.  So it asks the generator at most once, never before
    the lookup, and never writes the cache without a generated answer. *)
Theorem send_message_calls (message : schemas.MessageCreate.t) (w : World) :
  let content := schemas.MessageCreate.content message in
  let evs := new_events w (send_message message w).2 in
  evs = [RedisGet (cache_key content)]
  \/ evs = [OpenAICall content; RedisGet (cache_key content)]
  \/ exists text,
       openai_chat (S (length (trace w))) content = Some text
       /\ evs = [RedisSetex (cache_key content) 300 (strip text); OpenAICall content;
                 RedisGet (cache_key content)].
Proof.
  destruct message as [content]. cbn [schemas.MessageCreate.content].
  rewrite send_message_run.
  assert (Hpath :
    let evs := new_events w (generation_path content w).2 in
    evs = [RedisGet (cache_key content)]
    \/ evs = [OpenAICall content; RedisGet (cache_key content)]
    \/ exists text,
         openai_chat (S (length (trace w))) content = Some text
         /\ evs = [RedisSetex (cache_key content) 300 (strip text); OpenAICall content;
                   RedisGet (cache_key content)]).
  { unfold generation_path.
    destruct (openai_chat (S (length (trace w))) content) as [text|].
    - right; right. exists text. split; [reflexivity|].
      destruct (redis_down (S (S (length (trace w)))));
        apply new_events_app; reflexivity.
    - right; left. apply new_events_app. reflexivity. }
  destruct (redis_down (length (trace w))).
  - left. apply new_events_app. reflexivity.
  - destruct (redis_value w (cache_key content)) as [[cached|raw]|];
      [|left; apply new_events_app; reflexivity|exact Hpath].
    destruct (truthy (Some cached)); [|exact Hpath].
    left. apply new_events_app. reflexivity.
Qed.

(** X8.  A [send_message] that answers has appended exactly the record it
    returns, under the next id and with the content of the request, below
    the rows that were there; and either the cache held that response for
    the content and is as it was, or the cache now holds it, for 300
    seconds, having been asked and found wanting. *)
Theorem send_message_returns_what_it_stored
  (message : schemas.MessageCreate.t) (record : schemas.Message.t) (w w' : World) :
  send_message message w = (inr record, w') ->
  let content := schemas.MessageCreate.content message in
  schemas.Message.content record = content
  /\ schemas.Message.id record = id_seq w + 1
  /\ id_seq w' = id_seq w + 1
  /\ messages w' =
       messages w ++ [models.mkMessage (schemas.Message.id record) content
                        (schemas.Message.response record)]
  /\ (redis_value w (cache_key content) = Some (utf8 (schemas.Message.response record))
       /\ redis w' = redis w
      \/ truthy_bytes (redis_value w (cache_key content)) = false
         /\ redis w' =
              <[cache_key content := (utf8 (schemas.Message.response record), now w + 300)]>
                (redis w)).
Proof.
  destruct message as [content]. cbn [schemas.MessageCreate.content].
  rewrite send_message_run.
  assert (Hpath : truthy_bytes (redis_value w (cache_key content)) = false ->
    generation_path content w = (inr record, w') ->
    schemas.Message.content record = content
    /\ schemas.Message.id record = id_seq w + 1
    /\ id_seq w' = id_seq w + 1
    /\ messages w' =
         messages w ++ [models.mkMessage (schemas.Message.id record) content
                          (schemas.Message.response record)]
    /\ (redis_value w (cache_key content) = Some (utf8 (schemas.Message.response record))
         /\ redis w' = redis w
        \/ truthy_bytes (redis_value w (cache_key content)) = false
           /\ redis w' =
                <[cache_key content := (utf8 (schemas.Message.response record), now w + 300)]>
                  (redis w))).
  { intros Hmiss. unfold generation_path.
    destruct (openai_chat (S (length (trace w))) content) as [text|]; [|discriminate].
    destruct (redis_down (S (S (length (trace w))))); [discriminate|].
    intros [= <- <-]. cbn. repeat (split; [reflexivity|]). right. auto. }
  destruct (redis_down (length (trace w))); [discriminate|].
  destruct (redis_value w (cache_key content)) as [[cached|raw]|] eqn:Hval.
  - destruct (truthy (Some cached)) eqn:Ht.
    + intros [= <- <-]. cbn. repeat (split; [reflexivity|]). left. auto.
    + apply Hpath. exact Ht.
  - discriminate.
  - apply Hpath. reflexivity.
Qed.

(** ** Edits and deletions between two requests *)

Lemma edit_message_world (message_id : Z) (request : EditMessageRequest) (w : World) :
  exists ms,
    (edit_message message_id request w).2 =
      set_messages ms (log (OpenAICall (new_content request)) w)
    /\ length ms = length (messages w).
Proof.
  unfold edit_message, bind at 1, generate_response.
  destruct (openai_chat (length (trace w)) (new_content request)) as [text|].
  - unfold bind, crud.update_message. cbn [messages log].
    destruct (list_find _ (messages w)) as [[i m]|]; cbn [snd].
    + eexists. split; [reflexivity|]. apply length_insert.
    + exists (messages w). split; reflexivity.
  - exists (messages w). split; reflexivity.
Qed.

Lemma delete_world (message_id : Z) (w : World) :
  (delete_message_and_following message_id w).2 =
    set_messages (before_id message_id (messages w)) w.
Proof.
  destruct (decide (from_id message_id (messages w) = [])) as [Hnone|Hsome].
  - rewrite delete_nothing by exact Hnone. cbn [snd].
    assert (Hall : before_id message_id (messages w) = messages w).
    { unfold before_id, from_id in *. induction (messages w) as [|m ms IH]; [reflexivity|].
      rewrite filter_cons in Hnone.
      destruct (decide (message_id <= models.id m)); [discriminate|].
      rewrite filter_cons_True by lia. f_equal. apply IH, Hnone. }
    rewrite Hall. destruct w; reflexivity.
  - rewrite delete_some by exact Hsome. reflexivity.
Qed.

(** X9.  A cached response outlives the history: when the cache holds for
    a content, not yet expired, the UTF-8 bytes of a non-empty response, a
    [send_message] of that content is answered with it, the generator
    unasked, also right after a [delete_message_and_following] or an
    [edit_message], whichever rows those removed or rewrote. *)
Theorem cached_answer_survives_edit_and_delete
  (content cached : string) (expires : Z) (w : World) :
  redis w !! cache_key content = Some (utf8 cached, expires) ->
  now w <= expires ->
  cached <> "" ->
  (forall message_id,
     redis_down (length (trace w)) = false ->
     let w1 := (delete_message_and_following message_id w).2 in
     send_message (schemas.MessageCreate.mk content) w1 =
       (inr (schemas.Message.mk (id_seq w + 1) content cached),
        after_hit w1 content cached))
  /\ (forall message_id request,
       redis_down (S (length (trace w))) = false ->
       let w1 := (edit_message message_id request w).2 in
       send_message (schemas.MessageCreate.mk content) w1 =
         (inr (schemas.Message.mk (id_seq w + 1) content cached),
          after_hit w1 content cached)).
Proof.
  intros Hentry Hlive Hne.
  assert (Hval : redis_value w (cache_key content) = Some (utf8 cached)).
  { apply (redis_value_live w _ _ expires); assumption. }
  split.
  - intros message_id Hup w1. unfold w1. rewrite delete_world.
    apply (send_message_hit content cached
             (set_messages (before_id message_id (messages w)) w));
      [exact Hup | exact Hval | exact Hne].
  - intros message_id request Hup w1. unfold w1.
    destruct (edit_message_world message_id request w) as (ms & -> & _).
    apply (send_message_hit content cached
             (set_messages ms (log (OpenAICall (new_content request)) w)));
      [exact Hup | exact Hval | exact Hne].
Qed.

(** X10.  [edit_message] does not fill the cache: when the cache has
    nothing to serve for the new content, it still has nothing after the
    edit, so a [send_message] of that very content asks the generator for it
    a second time. *)
Theorem edit_message_does_not_fill_the_cache
  (message_id : Z) (request : EditMessageRequest) (w : World) :
  truthy_bytes (redis_value w (cache_key (new_content request))) = false ->
  redis_down (S (length (trace w))) = false ->
  let content := new_content request in
  let w1 := (edit_message message_id request w).2 in
  redis_value w1 (cache_key content) = redis_value w (cache_key content)
  /\ exists evs,
       trace (send_message (schemas.MessageCreate.mk content) w1).2 =
         evs ++ OpenAICall content :: RedisGet (cache_key content)
             :: OpenAICall content :: trace w.
Proof.
  intros Hmiss Hup content w1. unfold w1, content.
  destruct (edit_message_world message_id request w) as (ms & -> & _).
  split; [reflexivity|].
  rewrite send_message_run. cbn [trace set_messages log length]. rewrite Hup.
  change (redis_value (set_messages ms (log (OpenAICall (new_content request)) w))
            (cache_key (new_content request)))
    with (redis_value w (cache_key (new_content request))).
  assert (Hpath : exists evs,
    trace (generation_path (new_content request)
             (set_messages ms (log (OpenAICall (new_content request)) w))).2 =
      evs ++ OpenAICall (new_content request) :: RedisGet (cache_key (new_content request))
          :: OpenAICall (new_content request) :: trace w).
  { unfold generation_path. cbn [trace set_messages log length].
    destruct (openai_chat _ (new_content request)) as [text|].
    - destruct (redis_down (S (S (S (length (trace w))))));
        exists [RedisSetex (cache_key (new_content request)) 300 (strip text)];
        reflexivity.
    - exists []. reflexivity. }
  apply truthy_bytes_false in Hmiss as [Hmiss | Hmiss]; rewrite Hmiss; exact Hpath.
Qed.

Lemma from_id_before_id_le (a b : Z) (ms : list models.Message) :
  a <= b -> from_id b (before_id a ms) = [].
Proof.
  intros Hab. unfold from_id, before_id. induction ms as [|m ms IH]; [reflexivity|].
  rewrite filter_cons. destruct (decide (models.id m < a)).
  - rewrite filter_cons_False by lia. exact IH.
  - exact IH.
Qed.

(** X11.  Deletions compose: a [DELETE] from [a] followed by one from [b]
    leaves the rows below the smaller of the two and nothing else of the
    other fields changed, as one [DELETE] from the smaller would; the rows
    the two removed add up to the rows that one would remove; and when [b]
    is not below [a] the second finds nothing and ends with 404. *)
Theorem delete_then_delete (a b : Z) (w : World) :
  let w1 := (delete_message_and_following a w).2 in
  let w2 := (delete_message_and_following b w1).2 in
  w2 = (delete_message_and_following (Z.min a b) w).2
  /\ messages w2 = before_id (Z.min a b) (messages w)
  /\ (length (from_id a (messages w)) + length (from_id b (messages w1)))%nat =
       length (from_id (Z.min a b) (messages w))
  /\ (a <= b -> delete_message_and_following b w1 = (inl not_found, w1)).
Proof.
  intros w1 w2. unfold w2, w1. rewrite !delete_world. cbn [messages set_messages].
  assert (Hcomp : before_id b (before_id a (messages w)) =
                  before_id (Z.min a b) (messages w)).
  { unfold before_id. rewrite list_filter_filter. apply list_filter_iff.
    intros m. lia. }
  split; [unfold set_messages; cbn; rewrite Hcomp; reflexivity|].
  split; [exact Hcomp|]. split.
  - pose proof (length_from_before a (messages w)) as Ha.
    pose proof (length_from_before b (before_id a (messages w))) as Hb.
    pose proof (length_from_before (Z.min a b) (messages w)) as Hm.
    rewrite Hcomp in Hb. lia.
  - intros Hab. apply delete_nothing. cbn [messages set_messages].
    apply from_id_before_id_le. exact Hab.
Qed.

(** ** Invariants of the running application *)

Lemma generator_calls_app (evs evs' : list Event) :
  generator_calls (evs ++ evs') = (generator_calls evs + generator_calls evs')%nat.
Proof. unfold generator_calls. rewrite filter_app, length_app. reflexivity. Qed.

Lemma serve_all_cons (r : Request) (rs : list Request) (w : World) :
  serve_all (r :: rs) w = serve_all rs (serve r w).
Proof. reflexivity. Qed.

(** What one request can do to the clock, the trace and the cache: time
    does not go back, the generator is asked at most once and only by the
    two routes that generate, and the cache is either left alone or given
    one entry, a stripped answer of the generator under the key of the
    content it was asked for, expiring 300 seconds from now. *)
Lemma serve_effect (r : Request) (w : World) :
  now w <= now (serve r w)
  /\ exists evs,
       trace (serve r w) = evs ++ trace w
       /\ (generator_calls evs <= if asks_generator r then 1 else 0)%nat
       /\ (redis (serve r w) = redis w
           \/ exists content text,
                openai_chat (S (length (trace w))) content = Some text
                /\ now (serve r w) = now w
                /\ redis (serve r w) =
                     <[cache_key content := (utf8 (strip text), now w + 300)]> (redis w)
                /\ evs = [RedisSetex (cache_key content) 300 (strip text);
                          OpenAICall content; RedisGet (cache_key content)]).
Proof.
  destruct r as [[content]|skip limit|message_id request|message_id|seconds];
    cbn [serve asks_generator].
  - rewrite send_message_run.
    assert (Hpath :
      now w <= now (generation_path content w).2
      /\ exists evs,
           trace (generation_path content w).2 = evs ++ trace w
           /\ (generator_calls evs <= 1)%nat
           /\ (redis (generation_path content w).2 = redis w
               \/ exists content0 text,
                    openai_chat (S (length (trace w))) content0 = Some text
                    /\ now (generation_path content w).2 = now w
                    /\ redis (generation_path content w).2 =
                         <[cache_key content0 := (utf8 (strip text), now w + 300)]> (redis w)
                    /\ evs = [RedisSetex (cache_key content0) 300 (strip text);
                              OpenAICall content0; RedisGet (cache_key content0)])).
    { unfold generation_path.
      destruct (openai_chat (S (length (trace w))) content) as [text|] eqn:Hgen.
      - destruct (redis_down (S (S (length (trace w))))); cbn [snd].
        + split; [cbn; lia|].
          exists [RedisSetex (cache_key content) 300 (strip text); OpenAICall content;
                  RedisGet (cache_key content)].
          split; [reflexivity|]. split; [vm_compute; lia|]. left. reflexivity.
        + split; [cbn; lia|].
          exists [RedisSetex (cache_key content) 300 (strip text); OpenAICall content;
                  RedisGet (cache_key content)].
          split; [reflexivity|]. split; [vm_compute; lia|]. right.
          exists content, text. repeat split; assumption || reflexivity.
      - cbn [snd]. split; [cbn; lia|].
        exists [OpenAICall content; RedisGet (cache_key content)].
        split; [reflexivity|]. split; [vm_compute; lia|]. left. reflexivity. }
    assert (Hquiet :
      forall w1, now w1 = now w -> redis w1 = redis w ->
        trace w1 = [RedisGet (cache_key content)] ++ trace w ->
        now w <= now w1
        /\ exists evs,
             trace w1 = evs ++ trace w
             /\ (generator_calls evs <= 1)%nat
             /\ (redis w1 = redis w
                 \/ exists content0 text,
                      openai_chat (S (length (trace w))) content0 = Some text
                      /\ now w1 = now w
                      /\ redis w1 =
                           <[cache_key content0 := (utf8 (strip text), now w + 300)]> (redis w)
                      /\ evs = [RedisSetex (cache_key content0) 300 (strip text);
                                OpenAICall content0; RedisGet (cache_key content0)])).
    { intros w1 Hnow Hredis Htrace. split; [lia|].
      exists [RedisGet (cache_key content)].
      split; [exact Htrace|]. split; [vm_compute; lia|]. left. exact Hredis. }
    destruct (redis_down (length (trace w))).
    + apply Hquiet; reflexivity.
    + destruct (redis_value w (cache_key content)) as [[cached|raw]|];
        [|apply Hquiet; reflexivity|exact Hpath].
      destruct (truthy (Some cached)); [|exact Hpath].
      apply Hquiet; reflexivity.
  - unfold get_messages, bind, crud.get_messages, ret. cbn [snd].
    split; [lia|]. exists []. split; [reflexivity|]. split; [vm_compute; lia|].
    left. reflexivity.
  - destruct (edit_message_world message_id request w) as (ms & -> & _).
    split; [cbn; lia|]. exists [OpenAICall (new_content request)].
    split; [reflexivity|]. split; [vm_compute; lia|]. left. reflexivity.
  - rewrite delete_world. split; [cbn; lia|]. exists [].
    split; [reflexivity|]. split; [vm_compute; lia|]. left. reflexivity.
  - split; [cbn; lia|]. exists []. split; [reflexivity|].
    split; [vm_compute; lia|]. left. reflexivity.
Qed.

Lemma serve_all_ttl (rs : list Request) (w : World) :
  (forall key value expires,
     redis w !! key = Some (value, expires) -> expires <= now w + 300) ->
  forall key value expires,
    redis (serve_all rs w) !! key = Some (value, expires) ->
    expires <= now (serve_all rs w) + 300.
Proof.
  revert w. induction rs as [|r rs IH]; intros w Hinv; [exact Hinv|].
  rewrite serve_all_cons. apply IH. intros key value expires.
  destruct (serve_effect r w) as (Hnow & evs & _ & _ & [Hsame|Hput]).
  - rewrite Hsame. intros Hentry. specialize (Hinv _ _ _ Hentry). lia.
  - destruct Hput as (content & text & _ & Hnow' & -> & _).
    rewrite lookup_insert. destruct (decide (cache_key content = key)).
    + intros [= <- <-]. lia.
    + intros Hentry. specialize (Hinv _ _ _ Hentry). lia.
Qed.

(** X12.  However the application was used since it started on an empty
    cache, no entry of the cache expires later than 300 seconds from now;
    so once more than 300 seconds have passed without a request, no key
    reads as anything. *)
Theorem cache_entries_expire_within_300 (rs : list Request) (key : string) (idle : nat) :
  let w := serve_all rs empty_world in
  (forall value expires,
     redis w !! key = Some (value, expires) -> expires <= now w + 300)
  /\ redis_value (tick (300 + Z.of_nat (S idle)) w) key = None.
Proof.
  intros w.
  assert (Hinv : forall value expires,
    redis w !! key = Some (value, expires) -> expires <= now w + 300).
  { intros value expires. apply serve_all_ttl. intros k v e Hk.
    cbn in Hk. rewrite lookup_empty in Hk. discriminate. }
  split; [exact Hinv|]. rewrite redis_value_tick.
  destruct (redis w !! key) as [[value expires]|]; [|reflexivity].
  rewrite bool_decide_eq_false_2; [reflexivity|].
  specialize (Hinv value expires eq_refl). lia.
Qed.



(** X14.  Over any sequence of requests the generator is asked at most once
    for each [POST] and [PUT], never for a [GET] or a [DELETE] or by time
    passing. *)
Theorem generator_asked_at_most_once_per_request (rs : list Request) (w : World) :
  (generator_calls (trace (serve_all rs w)) <=
     generator_calls (trace w) + length (filter (fun r => asks_generator r = true) rs))%nat.
Proof.
  revert w. induction rs as [|r rs IH]; intros w; [cbn; lia|].
  rewrite serve_all_cons. specialize (IH (serve r w)).
  destruct (serve_effect r w) as (_ & evs & Htrace & Hcalls & _).
  rewrite Htrace, generator_calls_app in IH. rewrite filter_cons.
  destruct (asks_generator r); cbn [decide_rel] in *.
  - destruct (decide (true = true)); [|congruence]. cbn [length]. lia.
  - destruct (decide (false = true)); [discriminate|]. lia.
Qed.

(** ** Requests that fail *)

(** X15.  A request that ends with an exception has written nothing, with
    one exception.  A failed [delete_message_and_following] is a 404 and
    leaves the world as it was; a failed [edit_message] is the generator's
    error or a 404 and leaves table and cache as they were; a failed
    [send_message] leaves the cache as it was and also the table, unless what
    failed is the cache write: then the generated row is in the table
    although the request failed. *)
Theorem failed_requests_and_their_writes :
  (forall message_id e w w',
     delete_message_and_following message_id w = (inl e, w') ->
     e = not_found /\ w' = w)
  /\ (forall message_id request e w w',
       edit_message message_id request w = (inl e, w') ->
       (e = OpenAIError \/ e = not_found)
       /\ messages w' = messages w /\ id_seq w' = id_seq w /\ redis w' = redis w)
  /\ (forall content e w w',
       send_message (schemas.MessageCreate.mk content) w = (inl e, w') ->
       redis w' = redis w
       /\ ((e = RedisError \/ e = OpenAIError \/ e = UnicodeDecodeError)
            /\ messages w' = messages w /\ id_seq w' = id_seq w
           \/ e = RedisError
              /\ exists text,
                   openai_chat (S (length (trace w))) content = Some text
                   /\ w' = after_failed_write w content (strip text))).
Proof.
  split; [|split].
  - intros message_id e w w'.
    destruct (decide (from_id message_id (messages w) = [])) as [Hnone|Hsome].
    + rewrite delete_nothing by exact Hnone. intros [= <- <-]. auto.
    + rewrite delete_some by exact Hsome. discriminate.
  - intros message_id request e w w'.
    unfold edit_message, bind at 1, generate_response.
    destruct (openai_chat (length (trace w)) (new_content request)) as [text|].
    + unfold bind, crud.update_message. cbn [messages log].
      destruct (list_find _ (messages w)) as [[i m]|].
      * discriminate.
      * intros [= <- <-]. cbn. auto.
    + intros [= <- <-]. cbn. auto.
  - intros content e w w'. rewrite send_message_run.
    assert (Hpath : generation_path content w = (inl e, w') ->
      redis w' = redis w
      /\ ((e = RedisError \/ e = OpenAIError \/ e = UnicodeDecodeError)
           /\ messages w' = messages w /\ id_seq w' = id_seq w
          \/ e = RedisError
             /\ exists text,
                  openai_chat (S (length (trace w))) content = Some text
                  /\ w' = after_failed_write w content (strip text))).
    { unfold generation_path.
      destruct (openai_chat (S (length (trace w))) content) as [text|].
      - destruct (redis_down (S (S (length (trace w))))); [|discriminate].
        intros [= <- <-]. split; [reflexivity|]. right. split; [reflexivity|].
        exists text. auto.
      - intros [= <- <-]. split; [reflexivity|]. left. cbn. auto. }
    destruct (redis_down (length (trace w))).
    + intros [= <- <-]. split; [reflexivity|]. left. cbn. auto.
    + destruct (redis_value w (cache_key content)) as [[cached|raw]|];
        [| |exact Hpath].
      * destruct (truthy (Some cached)); [discriminate | exact Hpath].
      * intros [= <- <-]. split; [reflexivity|]. left. cbn. auto.
Qed.

End App.

(** ** The statements on concrete requests *)

(** C1, where the code departs from it.  A first request for "Hello" that the
    generator answers with the empty text leaves a live cache entry holding
    that response; the next request for "Hello" does not return it: it asks
    the generator again and returns the new answer. *)
Theorem empty_cached_response_is_regenerated :
  send_message plain_digest no_strip empty_then_echo_chat redis_up hello empty_world =
    (inr (schemas.Message.mk 1 "Hello" ""), empty_answer_world)
  /\ redis empty_answer_world !! cache_key plain_digest "Hello" = Some (utf8 "", 300)
  /\ now empty_answer_world < 300
  /\ exists w',
       send_message plain_digest no_strip empty_then_echo_chat redis_up hello
         empty_answer_world = (inr (schemas.Message.mk 2 "Hello" "re: Hello"), w')
       /\ new_events empty_answer_world w' =
            [RedisSetex "message:Hello" 300 "re: Hello"; OpenAICall "Hello";
             RedisGet "message:Hello"].
Proof.
  split; [vm_compute; reflexivity|]. split; [vm_compute; reflexivity|].
  split; [reflexivity|]. eexists. split; [vm_compute; reflexivity|].
  vm_compute. reflexivity.
Qed.

(** C2, where the code departs from it.  With a generator whose answer is
    the empty text, a request for "Hello" on an empty cache asks it once,
    appends the row and writes the cache entry; the same request ten seconds
    later asks the generator again. *)
Theorem empty_answer_is_generated_twice :
  send_message plain_digest no_strip mute_chat redis_up hello empty_world =
    (inr (schemas.Message.mk 1 "Hello" ""), empty_answer_world)
  /\ exists w',
       send_message plain_digest no_strip mute_chat redis_up hello
         (tick 10 empty_answer_world) = (inr (schemas.Message.mk 2 "Hello" ""), w')
       /\ new_events (tick 10 empty_answer_world) w' =
            [RedisSetex "message:Hello" 300 ""; OpenAICall "Hello";
             RedisGet "message:Hello"]
       /\ length (filter (fun e => is_OpenAICall e = true) (trace w')) = 2%nat.
Proof.
  split; [vm_compute; reflexivity|]. eexists. split; [vm_compute; reflexivity|].
  split; vm_compute; reflexivity.
Qed.

(** The second request of the spec's end-to-end scenario. *)
Lemma cache_hit_skips_generation_witness :
  exists w',
    send_message plain_digest no_strip failing_chat redis_up hello greeted_world =
      (inr (schemas.Message.mk 2 "Hello" "Hi there"), w')
    /\ messages w' =
         [models.mkMessage 1 "Hello" "Hi there"; models.mkMessage 2 "Hello" "Hi there"]
    /\ redis w' = redis greeted_world
    /\ new_events greeted_world w' = [RedisGet "message:Hello"].
Proof.
  apply (cache_hit_skips_generation plain_digest no_strip failing_chat redis_up
           "Hello" "Hi there" 300 greeted_world).
  - vm_compute. reflexivity.
  - vm_compute. discriminate.
  - discriminate.
  - reflexivity.
Defined.

(** The end-to-end scenario with an echoing generator, the second request
    299 seconds after the first. *)
Lemma send_message_miss_then_hit_witness :
  send_message plain_digest no_strip echo_chat redis_up hello empty_world =
    (inr (schemas.Message.mk 1 "Hello" "re: Hello"),
     after_miss plain_digest empty_world "Hello" "re: Hello")
  /\ send_message plain_digest no_strip echo_chat redis_up hello
       (tick 299 (after_miss plain_digest empty_world "Hello" "re: Hello")) =
       (inr (schemas.Message.mk 2 "Hello" "re: Hello"),
        after_hit plain_digest
          (tick 299 (after_miss plain_digest empty_world "Hello" "re: Hello"))
          "Hello" "re: Hello").
Proof.
  destruct (send_message_miss_then_hit plain_digest no_strip echo_chat redis_up
              "Hello" "re: Hello" 299 empty_world) as (Hfirst & _ & Hsecond & _);
    try reflexivity; try discriminate; try lia.
  split; [exact Hfirst | exact Hsecond].
Defined.

(** C3 fails on the code: with a generator that answers every message and a
    Redis server that cannot be reached, the request does not go on to the
    generator; it ends with the Redis error, and no row is appended. *)
Lemma unreachable_cache_fails_the_request :
  (forall n, echo_chat n "Hello" = Some "re: Hello")
  /\ send_message plain_digest no_strip echo_chat redis_unreachable hello empty_world =
       (inl RedisError, log (RedisGet "message:Hello") empty_world)
  /\ messages (log (RedisGet "message:Hello") empty_world) = [].
Proof.
  split; [reflexivity|]. split; [vm_compute; reflexivity | reflexivity].
Qed.

(** Redis unreachable at the read, and Redis failing at the write only. *)
Lemma cache_failure_propagates_witness :
  send_message plain_digest no_strip echo_chat redis_unreachable hello empty_world =
    (inl RedisError, log (RedisGet "message:Hello") empty_world)
  /\ send_message plain_digest no_strip echo_chat redis_write_fails hello empty_world =
       (inl RedisError,
        mkWorld [models.mkMessage 1 "Hello" "re: Hello"] 1 ∅ 0
          [RedisSetex "message:Hello" 300 "re: Hello"; OpenAICall "Hello";
           RedisGet "message:Hello"]).
Proof.
  split.
  - apply (cache_failure_propagates plain_digest no_strip echo_chat redis_unreachable
             "Hello" empty_world).
    reflexivity.
  - apply (cache_failure_propagates plain_digest no_strip echo_chat redis_write_fails
             "Hello" empty_world); reflexivity.
Defined.

(** The rows 1 to 5: a [DELETE] from 3 leaves 1 and 2 and reports 3 rows; the
    same [DELETE] again ends with 404. *)
Lemma delete_message_and_following_spec_witness :
  delete_message_and_following 3 five_rows =
    (inr "Deleted 3 messages starting from ID 3",
     set_messages [models.mkMessage 1 "a" "A"; models.mkMessage 2 "b" "B"] five_rows)
  /\ delete_message_and_following 3
       (set_messages [models.mkMessage 1 "a" "A"; models.mkMessage 2 "b" "B"] five_rows) =
       (inl not_found,
        set_messages [models.mkMessage 1 "a" "A"; models.mkMessage 2 "b" "B"] five_rows).
Proof.
  destruct (delete_message_and_following_spec 3 five_rows) as [_ Hsome].
  destruct Hsome as (Hrun & _ & _ & _ & Hagain); [discriminate|].
  split; [exact Hrun | exact Hagain].
Defined.

(** Editing row 2 of five, and editing a row 9 that is not there. *)
Lemma edit_message_spec_witness :
  echo_chat 0 "new text" = Some "re: new text"
  /\ (exists w',
        edit_message no_strip echo_chat 2 (mkEditMessageRequest "new text") five_rows =
          (inr (schemas.EditMessage.mk 2 "new text" "re: new text"), w')
        /\ new_events five_rows w' = [OpenAICall "new text"])
  /\ edit_message no_strip echo_chat 9 (mkEditMessageRequest "new text") five_rows =
       (inl not_found, log (OpenAICall "new text") five_rows).
Proof.
  split; [reflexivity|]. split.
  - destruct (edit_message_spec no_strip echo_chat 2 (mkEditMessageRequest "new text")
                "re: new text" five_rows eq_refl) as (Hev & Hyes & _).
    destruct Hyes as (i & old & _ & _ & Hrun & _).
    { apply Exists_cons_tl, Exists_cons_hd. reflexivity. }
    eexists. split; [exact Hrun|]. rewrite Hrun in Hev. exact Hev.
  - destruct (edit_message_spec no_strip echo_chat 9 (mkEditMessageRequest "new text")
                "re: new text" five_rows eq_refl) as (_ & _ & Hno).
    apply Hno. intros Hex. apply Exists_exists in Hex as (m & Hm & Hid).
    repeat (apply elem_of_cons in Hm as [->|Hm]; [discriminate|]).
    apply elem_of_nil in Hm. exact Hm.
Defined.

(** A generator that raises, on an empty table and an empty cache. *)
Lemma generation_failure_writes_nothing_witness :
  let w' := mkWorld [] 0 ∅ 0 [OpenAICall "Hello"; RedisGet "message:Hello"] in
  send_message plain_digest no_strip failing_chat redis_up hello empty_world =
    (inl OpenAIError, w')
  /\ messages w' = messages empty_world
  /\ id_seq w' = id_seq empty_world
  /\ redis w' = redis empty_world
  /\ new_events empty_world w' = [OpenAICall "Hello"; RedisGet "message:Hello"].
Proof.
  split; [vm_compute; reflexivity|].
  apply (generation_failure_writes_nothing plain_digest no_strip failing_chat redis_up
           hello empty_world).
  vm_compute. reflexivity.
Defined.

(** C8 fails on the code at the instant it names: an entry written at
    instant 0 is still served 300 seconds later, Redis taking a key for
    expired only once the clock is past its expiry. *)
Lemma cache_entry_is_served_at_300 :
  (check_cache_for_content plain_digest redis_up "Hello"
     (tick 300 (cache_response plain_digest redis_up "Hello" "Hi there" empty_world).2)).1
    = inr (Some "Hi there").
Proof. vm_compute. reflexivity. Qed.

(** An entry written at instant 0 is readable at 300 and gone at 301. *)
Lemma cache_response_expires_after_300_witness :
  exists w',
    cache_response plain_digest redis_up "Hello" "Hi there" empty_world = (inr tt, w')
    /\ redis w' !! "message:Hello" = Some (utf8 "Hi there", 300)
    /\ redis_value (tick 300 w') "message:Hello" = Some (utf8 "Hi there")
    /\ redis_value (tick 301 w') "message:Hello" = None.
Proof.
  destruct (cache_response_expires_after_300 plain_digest redis_up "Hello" "Hi there"
              empty_world eq_refl) as (w' & Hrun & _ & Hentry & Hgone & Hlive).
  exists w'. split; [exact Hrun|]. split; [exact Hentry|]. split.
  - apply Hlive. lia.
  - apply Hgone. lia.
Defined.

(** Rows stored as 3, 1, 2 and read with [skip = 1], [limit = 2]. *)
Lemma get_messages_spec_witness :
  0 <= 1 /\ 0 <= 2
  /\ get_messages (Some 1) (Some 2) shuffled_rows =
       (inr [models.mkMessage 2 "b" "B"; models.mkMessage 3 "c" "C"], shuffled_rows)
  /\ exists sorted page,
       sorted ≡ₚ messages shuffled_rows
       /\ StronglySorted id_le sorted
       /\ get_messages (Some 1) (Some 2) shuffled_rows = (inr page, shuffled_rows)
       /\ page = take (Z.to_nat 2) (drop (Z.to_nat 1) sorted)
       /\ StronglySorted id_le page
       /\ Z.of_nat (length page) <= 2
       /\ (forall i, (i < Z.to_nat 2)%nat -> page !! i = sorted !! (Z.to_nat 1 + i)%nat)
       /\ get_messages None None shuffled_rows =
            get_messages (Some 1) (Some 10) shuffled_rows.
Proof.
  split; [lia|]. split; [lia|]. split; [vm_compute; reflexivity|].
  apply (get_messages_spec 1 2 shuffled_rows); lia.
Defined.

(** The world an empty generated answer leaves behind. *)
Lemma empty_cached_response_is_a_miss_witness :
  redis_value empty_answer_world "message:Hello" = Some (utf8 "")
  /\ check_cache_for_content plain_digest redis_up "Hello" empty_answer_world =
       (inr None, log (RedisGet "message:Hello") empty_answer_world)
  /\ exists evs,
       trace (send_message plain_digest no_strip echo_chat redis_up hello
                empty_answer_world).2 =
         evs ++ OpenAICall "Hello" :: RedisGet "message:Hello" :: trace empty_answer_world.
Proof.
  apply (empty_cached_response_is_a_miss plain_digest no_strip echo_chat redis_up
           "Hello" 300 empty_answer_world).
  - vm_compute. reflexivity.
  - reflexivity.
  - reflexivity.
Defined.

(** "Hi there" written for "Hello" reads back 299 seconds later; the empty
    response written the same way does not. *)
Lemma cache_response_then_check_witness :
  (check_cache_for_content plain_digest redis_up "Hello"
     (tick 299 (cache_response plain_digest redis_up "Hello" "Hi there" empty_world).2)).1
    = inr (Some "Hi there")
  /\ (check_cache_for_content plain_digest redis_up "Hello"
        (tick 299 (cache_response plain_digest redis_up "Hello" "" empty_world).2)).1
       = inr None.
Proof.
  split.
  - apply (cache_response_then_check plain_digest redis_up "Hello" "Hi there" 299
             empty_world); [reflexivity | reflexivity | lia].
  - apply (cache_response_then_check plain_digest redis_up "Hello" "" 299
             empty_world); [reflexivity | reflexivity | lia].
Defined.

(** Under a digest where all contents collide "Bye" reads what was written
    for "Hello"; under one where they do not, it reads nothing. *)
Lemma cache_entries_are_per_digest_witness :
  redis_value
    (tick 10 (cache_response constant_digest redis_up "Hello" "Hi there" empty_world).2)
    (cache_key constant_digest "Bye") = Some (utf8 "Hi there")
  /\ redis_value
       (tick 10 (cache_response plain_digest redis_up "Hello" "Hi there" empty_world).2)
       (cache_key plain_digest "Bye") = redis_value (tick 10 empty_world) "message:Bye".
Proof.
  split.
  - apply (cache_entries_are_per_digest constant_digest redis_up "Hello" "Bye"
             "Hi there" 10 empty_world eq_refl).
    reflexivity.
  - apply (cache_entries_are_per_digest plain_digest redis_up "Hello" "Bye"
             "Hi there" 10 empty_world eq_refl).
    discriminate.
Defined.

(** A second answer written 200 seconds after the first is read 299 seconds
    after that, 499 seconds after the first write. *)
Lemma cache_response_overwrites_witness :
  redis_value
    (tick 299
       (cache_response plain_digest redis_up "Hello" "second"
          (tick 200 (cache_response plain_digest redis_up "Hello" "first"
                       empty_world).2)).2)
    "message:Hello" = Some (utf8 "second").
Proof.
  apply (cache_response_overwrites plain_digest redis_up "Hello" "first" "second"
           200%nat 299 empty_world eq_refl eq_refl).
Defined.

(** The first request of the end-to-end scenario. *)
Lemma send_message_returns_what_it_stored_witness :
  let w' := after_miss plain_digest empty_world "Hello" "re: Hello" in
  send_message plain_digest no_strip echo_chat redis_up hello empty_world =
    (inr (schemas.Message.mk 1 "Hello" "re: Hello"), w')
  /\ messages w' = [models.mkMessage 1 "Hello" "re: Hello"]
  /\ id_seq w' = 1.
Proof.
  assert (Hrun :
    send_message plain_digest no_strip echo_chat redis_up hello empty_world =
      (inr (schemas.Message.mk 1 "Hello" "re: Hello"),
       after_miss plain_digest empty_world "Hello" "re: Hello")).
  { vm_compute. reflexivity. }
  destruct (send_message_returns_what_it_stored plain_digest no_strip echo_chat redis_up
              hello _ empty_world _ Hrun) as (_ & _ & Hseq & Hrows & _).
  split; [exact Hrun|]. split; [exact Hrows | exact Hseq].
Defined.

(** "Hi there" is cached for "Hello": after the row 1 that came with it is
    deleted, and after an edit of it, "Hello" is still answered "Hi there",
    by a generator that would raise if asked. *)
Lemma cached_answer_survives_edit_and_delete_witness :
  (exists w',
     send_message plain_digest no_strip failing_chat redis_up hello
       (delete_message_and_following 1 greeted_world).2 =
       (inr (schemas.Message.mk 2 "Hello" "Hi there"), w'))
  /\ (exists w',
       send_message plain_digest no_strip failing_chat redis_up hello
         (edit_message no_strip failing_chat 1 (mkEditMessageRequest "Bye")
            greeted_world).2 =
         (inr (schemas.Message.mk 2 "Hello" "Hi there"), w')).
Proof.
  destruct (cached_answer_survives_edit_and_delete plain_digest no_strip failing_chat
              redis_up "Hello" "Hi there" 300 greeted_world) as [Hdelete Hedit].
  - vm_compute. reflexivity.
  - vm_compute. discriminate.
  - discriminate.
  - split; eexists.
    + apply (Hdelete 1). reflexivity.
    + apply (Hedit 1 (mkEditMessageRequest "Bye")). reflexivity.
Defined.

(** Row 2 is edited to "new text" on an empty cache, then "new text" is
    sent: the generator is asked for it both times. *)
Lemma edit_message_does_not_fill_the_cache_witness :
  exists evs,
    trace (send_message plain_digest no_strip echo_chat redis_up
             (schemas.MessageCreate.mk "new text")
             (edit_message no_strip echo_chat 2 (mkEditMessageRequest "new text")
                five_rows).2).2 =
      evs ++ [OpenAICall "new text"; RedisGet "message:new text"; OpenAICall "new text"].
Proof.
  destruct (edit_message_does_not_fill_the_cache plain_digest no_strip echo_chat redis_up
              2 (mkEditMessageRequest "new text") five_rows) as (_ & evs & Hevs).
  - vm_compute. reflexivity.
  - reflexivity.
  - exists evs. exact Hevs.
Defined.

